(** * Order execution and position ledger of the trading API

    A shallow embedding of [api/app/routers/trading.py] (order creation,
    quick trades, fill application, order editing and cancellation) and of
    the concentration metric and alert rule of [api/app/routers/risk.py].

    Modelling conventions.
    - [Decimal] values are canonical rationals ([Qc]): every operation is
      taken at its exact value.  Python's decimal context rounds a result
      that needs more than 28 significant digits, and the database rounds a
      value to the scale of its column when a row is written; the
      development models neither rounding.  Division by zero raises.
    - A database table is a finite map from primary key to row; [Db] is
      the record of the four tables the routers touch.  UUIDs and
      timestamps are numbers.
    - A raised exception is a value of [error].  A coroutine is a function
      from the state it runs on to its outcome and the state it leaves
      ([io]): [update_position_from_order] runs on the rows of the session,
      a request handler on a connection [Conn] that holds the committed
      rows, the rows of the session and the background tasks added. *)

From Stdlib Require Import QArith Qcanon.
From stdpp Require Import gmap strings list fin_maps numbers.

Local Open Scope Qc_scope.

(** ** Decimal values *)

Definition Decimal := Qc.

(** [dec n d] is the decimal [n / d], e.g. [dec 15 10000] for
    [Decimal("0.0015")]. *)
Definition dec (n : Z) (d : positive) : Decimal := Q2Qc (n # d).

(** Truthiness of [Decimal | None], as used by [x or y] and [not x]. *)
Definition truthy (x : option Decimal) : bool :=
  match x with
  | Some v => if decide (v = 0) then false else true
  | None => false
  end.

(** [x or y] on an optional decimal with a decimal default. *)
Definition or_else (x : option Decimal) (y : Decimal) : Decimal :=
  match x with
  | Some v => if decide (v = 0) then y else v
  | None => y
  end.

(** ** Exceptions and results *)

Inductive error :=
| PortfolioNotFound          (* 404 "Portfolio not found" *)
| AssetNotFound              (* 404 "Asset ... not found or not tradeable" *)
| PriceRequired              (* 400 "Price is required for limit and stop orders" *)
| BelowMinimumTrade          (* 400 "Order value must be at least ... EUR" *)
| DailyLimitReached          (* 429 "Daily trading limit of ... orders reached" *)
| InsufficientBalance        (* 400 "Insufficient portfolio balance" *)
| InsufficientPosition       (* 400 "Insufficient position quantity for sell order" *)
| QuantityOrAmountRequired   (* 400 "Either amount_eur or quantity must be provided" *)
| LiveTradingNotImplemented  (* 501 "Live trading not yet implemented" *)
| OrderNotFound              (* 404 "Order not found" *)
| OnlyPendingUpdatable       (* 400 "Can only update pending orders" *)
| OnlyPendingCancellable     (* 400 "Can only cancel pending orders" *)
| RequestValidationError     (* 422, a pydantic field constraint failed *)
| DecimalDivisionByZero      (* decimal: division by zero is trapped *)
| NoResultFound              (* sqlalchemy: scalar_one on an empty result *)
| MultipleResultsFound.      (* sqlalchemy: scalar_one(_or_none) on several rows *)

Definition status_code (e : error) : option nat :=
  match e with
  | PortfolioNotFound | AssetNotFound | OrderNotFound => Some 404%nat
  | PriceRequired | BelowMinimumTrade | InsufficientBalance
  | InsufficientPosition | QuantityOrAmountRequired
  | OnlyPendingUpdatable | OnlyPendingCancellable => Some 400%nat
  | DailyLimitReached => Some 429%nat
  | LiveTradingNotImplemented => Some 501%nat
  | RequestValidationError => Some 422%nat
  | DecimalDivisionByZero => None
  | NoResultFound | MultipleResultsFound => None
  end.

Inductive result (A : Type) :=
| Ok (a : A)
| Err (e : error).
Arguments Ok {A} a.
Arguments Err {A} e.

(** [x / y] on decimals. *)
Definition decimal_div (x y : Decimal) : result Decimal :=
  if decide (y = 0) then Err DecimalDivisionByZero else Ok (x / y).

(** A computation on a state of type [S]: its outcome and the state it
    leaves.  A raised exception stops the computation; the state keeps the
    mutations made before it. *)
Definition io (S A : Type) : Type := S -> result A * S.

#[global] Instance io_ret {S} : MRet (io S) := fun A a s => (Ok a, s).
#[global] Instance io_bind {S} : MBind (io S) := fun A B k m s =>
  match m s with
  | (Ok a, s') => k a s'
  | (Err e, s') => (Err e, s')
  end.

Definition raise {S A} (e : error) : io S A := fun s => (Err e, s).
Definition query {S A} (q : S -> result A) : io S A := fun s => (q s, s).
Definition modify {S} (f : S -> S) : io S unit := fun s => (Ok tt, f s).
Definition lift {S A} (r : result A) : io S A := fun s => (r, s).

(** ** Enumerations *)

Inductive OrderTypeEnum := BUY | SELL | MARKET | LIMIT | STOP_LOSS | TAKE_PROFIT.
Inductive OrderStatusEnum := PENDING | EXECUTED | CANCELLED | FAILED | PARTIAL.
Inductive PositionStatus := OPEN | CLOSED | PARTIALLY_CLOSED.

#[global] Instance OrderTypeEnum_eq_dec : EqDecision OrderTypeEnum.
Proof. solve_decision. Defined.
#[global] Instance OrderStatusEnum_eq_dec : EqDecision OrderStatusEnum.
Proof. solve_decision. Defined.
#[global] Instance PositionStatus_eq_dec : EqDecision PositionStatus.
Proof. solve_decision. Defined.

(** ** Rows of the relational model ([app/models]) *)

Definition uuid := nat.
Definition timestamp := N.

Module Portfolio.
Record t := mk {
  user_id : uuid;
  initial_balance : Decimal;
  current_balance : Decimal;
  total_invested : Decimal;
  total_profit_loss : Decimal
}.

Definition set_current_balance (b : Decimal) (p : t) : t :=
  mk (user_id p) (initial_balance p) b (total_invested p) (total_profit_loss p).
Definition set_total_profit_loss (x : Decimal) (p : t) : t :=
  mk (user_id p) (initial_balance p) (current_balance p) (total_invested p) x.
End Portfolio.

Module Asset.
Record t := mk {
  symbol : string;
  asset_type : string;
  is_active : bool
}.
End Asset.

Module Position.
Record t := mk {
  portfolio_id : uuid;
  asset_id : uuid;
  quantity : Decimal;
  avg_buy_price : Decimal;
  current_price : option Decimal;
  unrealized_pnl : Decimal;
  realized_pnl : Decimal;
  status : PositionStatus;
  closed_at : option timestamp
}.

Definition set_quantity (q : Decimal) (p : t) : t :=
  mk (portfolio_id p) (asset_id p) q (avg_buy_price p) (current_price p)
     (unrealized_pnl p) (realized_pnl p) (status p) (closed_at p).
Definition set_avg_buy_price (a : Decimal) (p : t) : t :=
  mk (portfolio_id p) (asset_id p) (quantity p) a (current_price p)
     (unrealized_pnl p) (realized_pnl p) (status p) (closed_at p).
Definition set_realized_pnl (r : Decimal) (p : t) : t :=
  mk (portfolio_id p) (asset_id p) (quantity p) (avg_buy_price p) (current_price p)
     (unrealized_pnl p) r (status p) (closed_at p).
Definition set_status (s : PositionStatus) (p : t) : t :=
  mk (portfolio_id p) (asset_id p) (quantity p) (avg_buy_price p) (current_price p)
     (unrealized_pnl p) (realized_pnl p) s (closed_at p).
Definition set_closed_at (c : option timestamp) (p : t) : t :=
  mk (portfolio_id p) (asset_id p) (quantity p) (avg_buy_price p) (current_price p)
     (unrealized_pnl p) (realized_pnl p) (status p) c.
End Position.

(** [external_order_id]: the simulator's reference [f"PAPER_{order.id}"]. *)
Inductive ExternalId := PAPER (order_id : uuid).

Module Order.
Record t := mk {
  portfolio_id : uuid;
  asset_id : uuid;
  order_type : OrderTypeEnum;
  quantity : Decimal;
  price : option Decimal;
  stop_price : option Decimal;
  status : OrderStatusEnum;
  executed_quantity : Decimal;
  executed_price : option Decimal;
  created_at : timestamp;
  executed_at : option timestamp;
  cancelled_at : option timestamp;
  external_order_id : option ExternalId;
  fee_amount : Decimal;
  fee_currency : option string
}.

Definition set_status (s : OrderStatusEnum) (o : t) : t :=
  mk (portfolio_id o) (asset_id o) (order_type o) (quantity o) (price o) (stop_price o)
     s (executed_quantity o) (executed_price o) (created_at o) (executed_at o)
     (cancelled_at o) (external_order_id o) (fee_amount o) (fee_currency o).
Definition set_cancelled_at (c : option timestamp) (o : t) : t :=
  mk (portfolio_id o) (asset_id o) (order_type o) (quantity o) (price o) (stop_price o)
     (status o) (executed_quantity o) (executed_price o) (created_at o) (executed_at o)
     c (external_order_id o) (fee_amount o) (fee_currency o).
Definition set_price (x : option Decimal) (o : t) : t :=
  mk (portfolio_id o) (asset_id o) (order_type o) (quantity o) x (stop_price o)
     (status o) (executed_quantity o) (executed_price o) (created_at o) (executed_at o)
     (cancelled_at o) (external_order_id o) (fee_amount o) (fee_currency o).
Definition set_stop_price (x : option Decimal) (o : t) : t :=
  mk (portfolio_id o) (asset_id o) (order_type o) (quantity o) (price o) x
     (status o) (executed_quantity o) (executed_price o) (created_at o) (executed_at o)
     (cancelled_at o) (external_order_id o) (fee_amount o) (fee_currency o).
Definition set_quantity (x : Decimal) (o : t) : t :=
  mk (portfolio_id o) (asset_id o) (order_type o) x (price o) (stop_price o)
     (status o) (executed_quantity o) (executed_price o) (created_at o) (executed_at o)
     (cancelled_at o) (external_order_id o) (fee_amount o) (fee_currency o).
End Order.

(** The dictionary returned by [simulate_order_execution]. *)
Module Execution.
Record t := mk {
  status : OrderStatusEnum;
  executed_quantity : Decimal;
  executed_price : Decimal;
  fee_amount : Decimal;
  fee_currency : string;
  external_order_id : ExternalId;
  executed_at : timestamp
}.
End Execution.

(** ** The database and the session *)

Record Db := mkDb {
  portfolios : gmap uuid Portfolio.t;
  assets : gmap uuid Asset.t;
  positions : gmap uuid Position.t;
  orders : gmap uuid Order.t
}.

Definition set_portfolios (x : gmap uuid Portfolio.t) (db : Db) : Db :=
  mkDb x (assets db) (positions db) (orders db).
Definition set_positions (x : gmap uuid Position.t) (db : Db) : Db :=
  mkDb (portfolios db) (assets db) x (orders db).
Definition set_orders (x : gmap uuid Order.t) (db : Db) : Db :=
  mkDb (portfolios db) (assets db) (positions db) x.

(** [result.scalar_one_or_none()] and [result.scalar_one()] on the rows a
    query selects. *)
Definition scalar_one_or_none {A} (rows : list (uuid * A)) : result (option (uuid * A)) :=
  match rows with
  | [] => Ok None
  | [r] => Ok (Some r)
  | _ => Err MultipleResultsFound
  end.

Definition scalar_one {A} (rows : list (uuid * A)) : result (uuid * A) :=
  match rows with
  | [] => Err NoResultFound
  | [r] => Ok r
  | _ => Err MultipleResultsFound
  end.

(** [select(Position).filter(portfolio_id == .., asset_id == .., status == "open")] *)
Definition is_open_position (pf a : uuid) (row : uuid * Position.t) : Prop :=
  Position.portfolio_id row.2 = pf ∧ Position.asset_id row.2 = a
  ∧ Position.status row.2 = OPEN.

#[global] Instance is_open_position_dec pf a row : Decision (is_open_position pf a row).
Proof. unfold is_open_position. apply _. Defined.

Definition select_open_position (pf a : uuid) (db : Db) : list (uuid * Position.t) :=
  map_to_list (filter (is_open_position pf a) (positions db)).

(** [select(Portfolio).filter(Portfolio.id == pf)]: a primary-key lookup. *)
Definition select_portfolio (pf : uuid) (db : Db) : list (uuid * Portfolio.t) :=
  match portfolios db !! pf with
  | Some p => [(pf, p)]
  | None => []
  end.

(** [db.add(row)]: the row is stored under a new primary key. *)
Definition new_id {A} (tbl : gmap uuid A) : uuid := fresh (dom tbl).

(** ** Fill application *)

(** [update_position_from_order(order, execution_result, db)], on the rows
    of the session.  [now] is the value of [datetime.utcnow()]. *)
Definition update_position_from_order (now : timestamp)
    (order : Order.t) (execution_result : Execution.t) : io Db unit :=
  let executed_quantity := Execution.executed_quantity execution_result in
  let executed_price := Execution.executed_price execution_result in
  let fee_amount := Execution.fee_amount execution_result in
  match Order.order_type order with
  | BUY =>
      found ← query (fun db => scalar_one_or_none
                 (select_open_position (Order.portfolio_id order) (Order.asset_id order) db));
      match found with
      | Some (pid, position) =>
          (* Update existing position *)
          let total_cost :=
            Position.quantity position * Position.avg_buy_price position
            + executed_quantity * executed_price in
          let total_quantity := Position.quantity position + executed_quantity in
          avg ← lift (decimal_div total_cost total_quantity);
          let position := Position.set_avg_buy_price avg position in
          let position := Position.set_quantity total_quantity position in
          modify (fun db => set_positions (<[pid := position]> (positions db)) db)
      | None =>
          (* Create new position *)
          let position :=
            Position.mk (Order.portfolio_id order) (Order.asset_id order)
              executed_quantity executed_price (Some executed_price)
              0 0 OPEN None in
          modify (fun db =>
            set_positions (<[new_id (positions db) := position]> (positions db)) db)
      end;;
      (* Update portfolio balance *)
      '(pfid, portfolio) ← query (fun db =>
                 scalar_one (select_portfolio (Order.portfolio_id order) db));
      let total_cost := executed_quantity * executed_price + fee_amount in
      let portfolio :=
        Portfolio.set_current_balance (Portfolio.current_balance portfolio - total_cost)
          portfolio in
      modify (fun db => set_portfolios (<[pfid := portfolio]> (portfolios db)) db)
  | SELL =>
      found ← query (fun db => scalar_one_or_none
                 (select_open_position (Order.portfolio_id order) (Order.asset_id order) db));
      match found with
      | None => raise InsufficientPosition
      | Some (pid, position) =>
          if decide (Position.quantity position < executed_quantity)
          then raise InsufficientPosition
          else
            (* Calculate P&L *)
            let sell_proceeds := executed_quantity * executed_price in
            let cost_basis := executed_quantity * Position.avg_buy_price position in
            let realized_pnl := sell_proceeds - cost_basis - fee_amount in
            (* Update position *)
            let position :=
              Position.set_quantity (Position.quantity position - executed_quantity) position in
            let position :=
              Position.set_realized_pnl (Position.realized_pnl position + realized_pnl)
                position in
            let position :=
              if decide (Position.quantity position = 0)
              then Position.set_closed_at (Some now) (Position.set_status CLOSED position)
              else position in
            modify (fun db => set_positions (<[pid := position]> (positions db)) db);;
            (* Update portfolio balance *)
            '(pfid, portfolio) ← query (fun db =>
                 scalar_one (select_portfolio (Order.portfolio_id order) db));
            let portfolio :=
              Portfolio.set_current_balance
                (Portfolio.current_balance portfolio + (sell_proceeds - fee_amount)) portfolio in
            let portfolio :=
              Portfolio.set_total_profit_loss
                (Portfolio.total_profit_loss portfolio + realized_pnl) portfolio in
            modify (fun db => set_portfolios (<[pfid := portfolio]> (portfolios db)) db)
      end
  | _ => mret tt
  end.

(** ** Settings and request models *)

(** The fields of [app.core.config.settings] the trading router reads. *)
Module Settings.
Record t := mk {
  PAPER_TRADING_MODE : bool;
  MAX_DAILY_TRADES : nat;
  MIN_TRADE_AMOUNT : Decimal
}.
End Settings.

(** The defaults of [Settings]: paper trading, 50 orders a day, 10 EUR. *)
Definition settings : Settings.t := Settings.mk true 50 (dec 10 1).

(** [Field(None, gt=0)] on an optional decimal. *)
Definition gt0 (x : option Decimal) : bool :=
  match x with
  | Some v => bool_decide (0 < v)
  | None => true
  end.

Module OrderCreate.
Record t := mk {
  portfolio_id : uuid;
  asset_symbol : string;
  order_type : OrderTypeEnum;
  quantity : Decimal;
  price : option Decimal;
  stop_price : option Decimal
}.

Definition valid (r : t) : bool :=
  bool_decide (0 < quantity r) && gt0 (price r) && gt0 (stop_price r).
End OrderCreate.

Module QuickTradeRequest.
Record t := mk {
  portfolio_id : uuid;
  asset_symbol : string;
  side : OrderTypeEnum;
  amount_eur : option Decimal;
  quantity : option Decimal
}.

(** [side] matches [^(buy|sell)$]; both amounts are [gt=0] when given. *)
Definition valid (r : t) : bool :=
  match side r with BUY | SELL => true | _ => false end
  && gt0 (amount_eur r) && gt0 (quantity r).
End QuickTradeRequest.

Module OrderUpdate.
Record t := mk {
  price : option Decimal;
  stop_price : option Decimal;
  quantity : option Decimal
}.

Definition valid (r : t) : bool :=
  gt0 (price r) && gt0 (stop_price r) && gt0 (quantity r).
End OrderUpdate.

Module OrderResponse.
Record t := mk {
  id : uuid;
  order : Order.t;
  remaining_quantity : Decimal;
  total_value : option Decimal;
  fill_percentage : Decimal
}.
End OrderResponse.

Module TradeExecutionResponse.
Record t := mk {
  order_id : uuid;
  status : OrderStatusEnum;
  executed_quantity : Decimal;
  executed_price : Decimal;
  total_value : Decimal;
  fee_amount : Decimal;
  net_amount : Decimal
}.
End TradeExecutionResponse.

(** ** Connections *)

(** What a request handler runs on: the committed rows, the rows of its
    session, and the [BackgroundTasks] it has added (order ids for
    [execute_order_async]). *)
Record Conn := mkConn {
  stored : Db;
  session : Db;
  background_tasks : list uuid
}.

(** A computation on the session's rows, run inside a handler. *)
Definition in_session {A} (m : io Db A) : io Conn A := fun c =>
  let '(r, s) := m (session c) in (r, mkConn (stored c) s (background_tasks c)).

(** [await db.commit()]. *)
Definition commit : io Conn unit := fun c =>
  (Ok tt, mkConn (session c) (session c) (background_tasks c)).

(** [background_tasks.add_task(execute_order_async, order_id)]. *)
Definition add_task (order_id : uuid) : io Conn unit := fun c =>
  (Ok tt, mkConn (stored c) (session c) (background_tasks c ++ [order_id])).

(** [execute_order_async(order_id)]: the body is [pass]. *)
Definition execute_order_async (order_id : uuid) (db : Db) : Db := db.

(** A request served: the handler runs on a session opened on the committed
    rows ([get_db]); the session is closed whatever the outcome, so only
    committed rows remain; the background tasks run after the response. *)
Definition serve {A} (handler : io Conn A) (db : Db) : result A * Db :=
  let '(r, c) := handler (mkConn db db []) in
  (r, foldl (fun d order_id => execute_order_async order_id d) (stored c) (background_tasks c)).

(** ** Utility functions of the trading router *)

(** [get_user_portfolio(portfolio_id, user, db)] *)
Definition get_user_portfolio (portfolio_id user : uuid) : io Db (uuid * Portfolio.t) :=
  fun db =>
    match portfolios db !! portfolio_id with
    | Some portfolio =>
        if decide (Portfolio.user_id portfolio = user)
        then (Ok (portfolio_id, portfolio), db)
        else (Err PortfolioNotFound, db)
    | None => (Err PortfolioNotFound, db)
    end.

(** [str.upper()] on ASCII letters. *)
Definition upper_ascii (c : Ascii.ascii) : Ascii.ascii :=
  let n := Ascii.nat_of_ascii c in
  if (97 <=? n)%nat && (n <=? 122)%nat then Ascii.ascii_of_nat (n - 32) else c.

Fixpoint upper (s : string) : string :=
  match s with
  | EmptyString => EmptyString
  | String c s' => String (upper_ascii c) (upper s')
  end.

(** [get_asset_by_symbol(symbol, db)] *)
Definition is_tradeable (sym : string) (row : uuid * Asset.t) : Prop :=
  Asset.symbol row.2 = sym ∧ Asset.is_active row.2 = true.

#[global] Instance is_tradeable_dec sym row : Decision (is_tradeable sym row).
Proof. unfold is_tradeable. apply _. Defined.

Definition get_asset_by_symbol (symbol : string) : io Db (uuid * Asset.t) :=
  found ← query (fun db => scalar_one_or_none
             (map_to_list (filter (is_tradeable (upper symbol)) (assets db))));
  match found with
  | Some asset => mret asset
  | None => raise AssetNotFound
  end.

(** [datetime.date()] of a timestamp in seconds. *)
Definition date (t : timestamp) : N := (t / 86400)%N.

Definition created_on (pf : uuid) (day : N) (row : uuid * Order.t) : Prop :=
  Order.portfolio_id row.2 = pf ∧ date (Order.created_at row.2) = day.

#[global] Instance created_on_dec pf day row : Decision (created_on pf day row).
Proof. unfold created_on. apply _. Defined.

(** [validate_order_limits(user, portfolio, order_value, db)] *)
Definition validate_order_limits (cfg : Settings.t) (now : timestamp)
    (user : uuid) (portfolio : uuid * Portfolio.t) (order_value : Decimal) : io Db unit :=
  (* Check minimum trade amount *)
  if decide (order_value < Settings.MIN_TRADE_AMOUNT cfg) then raise BelowMinimumTrade
  else
    (* Check daily trade limit *)
    let today := date now in
    daily_trades ← query (fun db =>
                      Ok (size (filter (created_on portfolio.1 today) (orders db))));
    if decide (Settings.MAX_DAILY_TRADES cfg ≤ daily_trades)%nat then raise DailyLimitReached
    else
      (* Check portfolio balance for buy orders *)
      if decide (Portfolio.current_balance portfolio.2 < order_value)
      then raise InsufficientBalance
      else mret tt.

(** [simulate_order_execution(order)] *)
Definition simulate_order_execution (cfg : Settings.t) (now : timestamp)
    (order_id : uuid) (order : Order.t) : result Execution.t :=
  if Settings.PAPER_TRADING_MODE cfg then
    let execution_price := or_else (Order.price order) (dec 45000 1) in
    let fee_rate := dec 15 10000 in
    let fee_amount := Order.quantity order * execution_price * fee_rate in
    Ok (Execution.mk EXECUTED (Order.quantity order) execution_price fee_amount
          "EUR" (PAPER order_id) now)
  else Err LiveTradingNotImplemented.

(** [db.add(db_order)]: the new row and its primary key. *)
Definition add_order (o : Order.t) : io Db uuid := fun db =>
  let id := new_id (orders db) in
  (Ok id, set_orders (<[id := o]> (orders db)) db).

(** An attribute assignment on a loaded order: its row in the session. *)
Definition set_order (id : uuid) (o : Order.t) : io Db unit :=
  modify (fun db => set_orders (<[id := o]> (orders db)) db).

(** ** Trading endpoints *)

(** [create_order(order_data, background_tasks, current_user, db)] *)
Definition create_order (cfg : Settings.t) (now : timestamp)
    (order_data : OrderCreate.t) (current_user : uuid) : io Conn OrderResponse.t :=
  if negb (OrderCreate.valid order_data) then raise RequestValidationError else
  (* Validate portfolio *)
  portfolio ← in_session (get_user_portfolio (OrderCreate.portfolio_id order_data) current_user);
  (* Validate asset *)
  asset ← in_session (get_asset_by_symbol (OrderCreate.asset_symbol order_data));
  (* Validate order parameters *)
  if match OrderCreate.order_type order_data with
     | LIMIT | STOP_LOSS | TAKE_PROFIT => negb (truthy (OrderCreate.price order_data))
     | _ => false
     end
  then raise PriceRequired
  else
    (* Calculate order value *)
    let estimated_price := or_else (OrderCreate.price order_data) (dec 45000 1) in
    let order_value := OrderCreate.quantity order_data * estimated_price in
    (* Validate limits *)
    in_session (validate_order_limits cfg now current_user portfolio order_value);;
    (* Create order *)
    let db_order :=
      Order.mk portfolio.1 asset.1 (OrderCreate.order_type order_data)
        (OrderCreate.quantity order_data) (OrderCreate.price order_data)
        (OrderCreate.stop_price order_data) PENDING 0 None now None None None 0 None in
    id ← in_session (add_order db_order);
    commit;;
    (* Execute order in background for market orders *)
    match OrderCreate.order_type order_data with
    | MARKET | BUY | SELL => add_task id
    | _ => mret tt
    end;;
    (* Prepare response *)
    mret (OrderResponse.mk id db_order
            (Order.quantity db_order - Order.executed_quantity db_order)
            (Some (or_else (Order.price db_order) estimated_price * Order.quantity db_order))
            (if decide (0 < Order.quantity db_order)
             then Order.executed_quantity db_order / Order.quantity db_order * dec 100 1
             else 0)).

(** The first step of [quick_trade], "Calculate quantity if amount_eur is
    provided": the value of [trade_data.quantity] after it. *)
Definition trade_quantity (trade_data : QuickTradeRequest.t) (current_price : Decimal)
    : result Decimal :=
  if truthy (QuickTradeRequest.amount_eur trade_data)
     && negb (truthy (QuickTradeRequest.quantity trade_data))
  then Ok (or_else (QuickTradeRequest.amount_eur trade_data) 0 / current_price)
  else if negb (truthy (QuickTradeRequest.quantity trade_data))
  then Err QuantityOrAmountRequired
  else Ok (or_else (QuickTradeRequest.quantity trade_data) 0).

(** [quick_trade(trade_data, current_user, db)] *)
Definition quick_trade (cfg : Settings.t) (now : timestamp)
    (trade_data : QuickTradeRequest.t) (current_user : uuid)
    : io Conn TradeExecutionResponse.t :=
  if negb (QuickTradeRequest.valid trade_data) then raise RequestValidationError else
  (* Validate portfolio *)
  portfolio ← in_session
                (get_user_portfolio (QuickTradeRequest.portfolio_id trade_data) current_user);
  (* Validate asset *)
  asset ← in_session (get_asset_by_symbol (QuickTradeRequest.asset_symbol trade_data));
  (* Calculate quantity if amount_eur is provided *)
  let current_price := dec 45000 1 in
  quantity ← lift (trade_quantity trade_data current_price);
  (* OrderCreate(..., quantity=trade_data.quantity): gt=0 *)
  (if decide (0 < quantity) then mret tt else raise RequestValidationError);;
  (* Create order *)
  let db_order :=
    Order.mk portfolio.1 asset.1 (QuickTradeRequest.side trade_data) quantity
      None None PENDING 0 None now None None None 0 None in
  id ← in_session (add_order db_order);
  commit;;
  (* Execute immediately *)
  execution_result ← lift (simulate_order_execution cfg now id db_order);
  (* Update order with execution results *)
  let db_order :=
    Order.mk (Order.portfolio_id db_order) (Order.asset_id db_order)
      (Order.order_type db_order) (Order.quantity db_order) (Order.price db_order)
      (Order.stop_price db_order)
      (Execution.status execution_result)
      (Execution.executed_quantity execution_result)
      (Some (Execution.executed_price execution_result))
      (Order.created_at db_order)
      (Some (Execution.executed_at execution_result))
      (Order.cancelled_at db_order)
      (Some (Execution.external_order_id execution_result))
      (Execution.fee_amount execution_result)
      (Some (Execution.fee_currency execution_result)) in
  in_session (set_order id db_order);;
  (* Update position *)
  in_session (update_position_from_order now db_order execution_result);;
  commit;;
  let total_value :=
    Execution.executed_quantity execution_result * Execution.executed_price execution_result in
  let net_amount := total_value - Execution.fee_amount execution_result in
  mret (TradeExecutionResponse.mk id (Execution.status execution_result)
          (Execution.executed_quantity execution_result)
          (Execution.executed_price execution_result)
          total_value (Execution.fee_amount execution_result) net_amount).

(** [select(Order).join(Portfolio).filter(Order.id == order_id,
    Portfolio.user_id == current_user.id)] with [scalar_one_or_none()]. *)
Definition select_user_order (order_id user : uuid) (db : Db) : option Order.t :=
  match orders db !! order_id with
  | Some order =>
      match portfolios db !! Order.portfolio_id order with
      | Some portfolio =>
          if decide (Portfolio.user_id portfolio = user) then Some order else None
      | None => None
      end
  | None => None
  end.

(** [update_order(order_id, order_update, current_user, db)] *)
Definition update_order (order_id : uuid) (order_update : OrderUpdate.t)
    (current_user : uuid) : io Conn OrderResponse.t :=
  if negb (OrderUpdate.valid order_update) then raise RequestValidationError else
  (* Get order *)
  found ← in_session (query (fun db => Ok (select_user_order order_id current_user db)));
  match found with
  | None => raise OrderNotFound
  | Some order =>
      if decide (Order.status order ≠ PENDING) then raise OnlyPendingUpdatable
      else
        (* Update fields *)
        let order :=
          match OrderUpdate.price order_update with
          | Some p => Order.set_price (Some p) order
          | None => order
          end in
        let order :=
          match OrderUpdate.stop_price order_update with
          | Some p => Order.set_stop_price (Some p) order
          | None => order
          end in
        let order :=
          match OrderUpdate.quantity order_update with
          | Some q => Order.set_quantity q order
          | None => order
          end in
        in_session (set_order order_id order);;
        commit;;
        mret (OrderResponse.mk order_id order
                (Order.quantity order - Order.executed_quantity order)
                None
                (if decide (0 < Order.quantity order)
                 then Order.executed_quantity order / Order.quantity order * dec 100 1
                 else 0))
  end.

(** [cancel_order(order_id, current_user, db)] *)
Definition cancel_order (now : timestamp) (order_id : uuid) (current_user : uuid)
    : io Conn unit :=
  (* Get order *)
  found ← in_session (query (fun db => Ok (select_user_order order_id current_user db)));
  match found with
  | None => raise OrderNotFound
  | Some order =>
      if decide (Order.status order ≠ PENDING) then raise OnlyPendingCancellable
      else
        (* Cancel order *)
        let order := Order.set_status CANCELLED order in
        let order := Order.set_cancelled_at (Some now) order in
        in_session (set_order order_id order);;
        commit
  end.

(** ** The exposed order operations *)

Inductive request :=
| CreateOrder (now : timestamp) (order_data : OrderCreate.t) (current_user : uuid)
| QuickTrade (now : timestamp) (trade_data : QuickTradeRequest.t) (current_user : uuid)
| UpdateOrder (order_id : uuid) (order_update : OrderUpdate.t) (current_user : uuid)
| CancelOrder (now : timestamp) (order_id : uuid) (current_user : uuid).

(** The committed rows after a request has been served. *)
Definition handle (cfg : Settings.t) (db : Db) (r : request) : Db :=
  match r with
  | CreateOrder now order_data user => (serve (create_order cfg now order_data user) db).2
  | QuickTrade now trade_data user => (serve (quick_trade cfg now trade_data user) db).2
  | UpdateOrder order_id order_update user =>
      (serve (update_order order_id order_update user) db).2
  | CancelOrder now order_id user => (serve (cancel_order now order_id user) db).2
  end.

Definition handle_all (cfg : Settings.t) (db : Db) (rs : list request) : Db :=
  foldl (handle cfg) db rs.

(** The terminal statuses of the order state machine. *)
Definition terminal (s : OrderStatusEnum) : Prop :=
  s = EXECUTED ∨ s = CANCELLED ∨ s = FAILED.

(** ** Risk metrics ([api/app/routers/risk.py]) *)

Inductive AlertTypeEnum := DRAWDOWN | CONCENTRATION | VOLATILITY | STOP_LOSS_ALERT | MARGIN_CALL.
Inductive SeverityEnum := LOW | MEDIUM | HIGH | CRITICAL.

#[global] Instance AlertTypeEnum_eq_dec : EqDecision AlertTypeEnum.
Proof. solve_decision. Defined.
#[global] Instance SeverityEnum_eq_dec : EqDecision SeverityEnum.
Proof. solve_decision. Defined.

(** The fields of [RiskMetrics] computed from the ledger or read by
    [check_risk_limits]; the allocation dictionaries and the constant
    ratios are left out. *)
Module RiskMetrics.
Record t := mk {
  total_value : Decimal;
  var_1d : Decimal;
  var_7d : Decimal;
  max_drawdown : Decimal;
  current_drawdown : Decimal;
  volatility_30d : Decimal;
  concentration_risk : Decimal
}.
End RiskMetrics.

(** An alert dictionary of [check_risk_limits], without its message. *)
Module Alert.
Record t := mk {
  type : AlertTypeEnum;
  severity : SeverityEnum;
  current_value : Decimal;
  threshold_value : Decimal
}.
End Alert.

Definition is_open_in (pf : uuid) (row : uuid * Position.t) : Prop :=
  Position.portfolio_id row.2 = pf ∧ Position.status row.2 = OPEN.

#[global] Instance is_open_in_dec pf row : Decision (is_open_in pf row).
Proof. unfold is_open_in. apply _. Defined.







(** ** Scenario data *)

(** One user (id 1) with one portfolio (id 7) and the asset BTC (id 3). *)
Definition alice : uuid := 1%nat.
Definition main_portfolio : uuid := 7%nat.
Definition btc_id : uuid := 3%nat.
Definition btc : Asset.t := Asset.mk "BTC" "crypto" true.

Definition portfolio_with (balance : Decimal) : Portfolio.t :=
  Portfolio.mk alice balance balance 0 0.

Definition db_with (balance : Decimal) : Db :=
  mkDb {[ main_portfolio := portfolio_with balance ]} {[ btc_id := btc ]} ∅ ∅.

Definition noon : timestamp := 43200%N.

(** An order of the given side on BTC, as [quick_trade] hands it to
    [update_position_from_order], and its simulated execution. *)
Definition btc_order (side : OrderTypeEnum) (quantity : Decimal) (price : option Decimal)
    : Order.t :=
  Order.mk main_portfolio btc_id side quantity price None EXECUTED quantity price
    noon (Some noon) None (Some (PAPER 0%nat)) 0 (Some "EUR").

Definition btc_fill (quantity price : Decimal) : Execution.t :=
  Execution.mk EXECUTED quantity price (quantity * price * dec 15 10000) "EUR"
    (PAPER 0%nat) noon.

(** A position of 0.1 BTC bought at 45,000. *)
Definition btc_position : Position.t :=
  Position.mk main_portfolio btc_id (dec 1 10) (dec 45000 1) (Some (dec 45000 1))
    0 0 OPEN None.

Definition db_holding (balance : Decimal) : Db :=
  set_positions {[ 0%nat := btc_position ]} (db_with balance).

(** * Properties *)

(** ** Queries after an update *)

Lemma new_id_fresh {A} (tbl : gmap uuid A) : tbl !! new_id tbl = None.
Proof. apply not_elem_of_dom, is_fresh. Qed.

Lemma select_open_position_elem pf a db pid pos :
  select_open_position pf a db = [(pid, pos)] →
  positions db !! pid = Some pos ∧ is_open_position pf a (pid, pos).
Proof.
  intros Hsel.
  assert ((pid, pos) ∈ select_open_position pf a db) as Hin
    by (rewrite Hsel; by apply list_elem_of_singleton).
  by apply elem_of_map_to_list, map_lookup_filter_Some in Hin.
Qed.

Lemma select_open_position_update pf a db db' pid pos pos' :
  select_open_position pf a db = [(pid, pos)] →
  is_open_position pf a (pid, pos') →
  positions db' = <[pid := pos']> (positions db) →
  select_open_position pf a db' = [(pid, pos')].
Proof.
  unfold select_open_position. intros Hsel Hopen ->.
  rewrite map_filter_insert_True by done.
  assert (filter (is_open_position pf a) (positions db) = {[pid := pos]}) as ->.
  { rewrite <- (list_to_map_to_list (filter _ _)), Hsel. cbn.
    by rewrite insert_empty. }
  rewrite insert_singleton_eq. apply map_to_list_singleton.
Qed.

Lemma select_open_position_add pf a db db' pos' :
  select_open_position pf a db = [] →
  is_open_position pf a (new_id (positions db), pos') →
  positions db' = <[new_id (positions db) := pos']> (positions db) →
  select_open_position pf a db' = [(new_id (positions db), pos')].
Proof.
  unfold select_open_position. intros Hsel Hopen ->.
  rewrite map_filter_insert_True by done.
  apply map_to_list_empty_iff in Hsel. rewrite Hsel, insert_empty.
  apply map_to_list_singleton.
Qed.

Lemma scalar_one_or_none_Some {A} (rows : list (uuid * A)) r :
  scalar_one_or_none rows = Ok (Some r) ↔ rows = [r].
Proof.
  split; [|by intros ->].
  destruct rows as [|r1 [|r2 rows]]; cbn; intros H; by simplify_eq.
Qed.

Lemma scalar_one_or_none_None {A} (rows : list (uuid * A)) :
  scalar_one_or_none rows = Ok None ↔ rows = [].
Proof.
  split; [|by intros ->].
  destruct rows as [|r1 [|r2 rows]]; cbn; intros H; by simplify_eq.
Qed.

(** ** What a fill does to the session *)

Section fill.
Variables (now : timestamp) (order : Order.t) (execution_result : Execution.t).

Let q' := Execution.executed_quantity execution_result.
Let p' := Execution.executed_price execution_result.
Let f := Execution.fee_amount execution_result.
Let pf_id := Order.portfolio_id order.

Lemma buy_existing db pid pos pf :
  Order.order_type order = BUY →
  scalar_one_or_none (select_open_position pf_id (Order.asset_id order) db)
    = Ok (Some (pid, pos)) →
  Position.quantity pos + q' ≠ 0 →
  portfolios db !! pf_id = Some pf →
  update_position_from_order now order execution_result db
  = (Ok tt,
     mkDb (<[pf_id := Portfolio.set_current_balance
                        (Portfolio.current_balance pf - (q' * p' + f)) pf]> (portfolios db))
          (assets db)
          (<[pid := Position.set_quantity (Position.quantity pos + q')
                      (Position.set_avg_buy_price
                         ((Position.quantity pos * Position.avg_buy_price pos + q' * p')
                          / (Position.quantity pos + q')) pos)]> (positions db))
          (orders db)).
Proof.
  intros Htype Hsel Hq Hpf. unfold update_position_from_order.
  rewrite Htype. unfold mbind, io_bind, query, modify, lift, decimal_div.
  fold pf_id. rewrite Hsel. fold q'. rewrite decide_False by done.
  unfold select_portfolio. cbn [portfolios set_positions]. rewrite Hpf. done.
Qed.

Lemma buy_new db pf :
  Order.order_type order = BUY →
  scalar_one_or_none (select_open_position pf_id (Order.asset_id order) db) = Ok None →
  portfolios db !! pf_id = Some pf →
  update_position_from_order now order execution_result db
  = (Ok tt,
     mkDb (<[pf_id := Portfolio.set_current_balance
                        (Portfolio.current_balance pf - (q' * p' + f)) pf]> (portfolios db))
          (assets db)
          (<[new_id (positions db) :=
               Position.mk pf_id (Order.asset_id order) q' p' (Some p') 0 0 OPEN None]>
             (positions db))
          (orders db)).
Proof.
  intros Htype Hsel Hpf. unfold update_position_from_order.
  rewrite Htype. unfold mbind, io_bind, query, modify.
  fold pf_id. rewrite Hsel.
  unfold select_portfolio. cbn [portfolios set_positions]. rewrite Hpf. done.
Qed.

Lemma sell_existing db pid pos pf :
  Order.order_type order = SELL →
  scalar_one_or_none (select_open_position pf_id (Order.asset_id order) db)
    = Ok (Some (pid, pos)) →
  ¬ Position.quantity pos < q' →
  portfolios db !! pf_id = Some pf →
  update_position_from_order now order execution_result db
  = (Ok tt,
     mkDb (<[pf_id := Portfolio.set_total_profit_loss
                        (Portfolio.total_profit_loss pf
                         + (q' * p' - q' * Position.avg_buy_price pos - f))
                        (Portfolio.set_current_balance
                           (Portfolio.current_balance pf + (q' * p' - f)) pf)]>
             (portfolios db))
          (assets db)
          (<[pid := Position.mk (Position.portfolio_id pos) (Position.asset_id pos)
                      (Position.quantity pos - q') (Position.avg_buy_price pos)
                      (Position.current_price pos) (Position.unrealized_pnl pos)
                      (Position.realized_pnl pos
                       + (q' * p' - q' * Position.avg_buy_price pos - f))
                      (if decide (Position.quantity pos - q' = 0)
                       then CLOSED else Position.status pos)
                      (if decide (Position.quantity pos - q' = 0)
                       then Some now else Position.closed_at pos)]> (positions db))
          (orders db)).
Proof.
  intros Htype Hsel Hq Hpf. unfold update_position_from_order.
  rewrite Htype. unfold mbind, io_bind, query, modify.
  fold pf_id. rewrite Hsel. fold q'. rewrite decide_False by done.
  unfold select_portfolio. cbn [portfolios set_positions]. rewrite Hpf.
  cbn. repeat case_decide; done.
Qed.

Lemma buy_applied_inv db db' :
  Order.order_type order = BUY →
  update_position_from_order now order execution_result db = (Ok tt, db') →
  ∃ pf found,
    portfolios db !! pf_id = Some pf
    ∧ scalar_one_or_none (select_open_position pf_id (Order.asset_id order) db) = Ok found
    ∧ ∀ pid pos, found = Some (pid, pos) → Position.quantity pos + q' ≠ 0.
Proof.
  intros Htype. unfold update_position_from_order.
  rewrite Htype. unfold mbind, io_bind, query, modify, lift, decimal_div.
  fold pf_id q'.
  destruct (scalar_one_or_none _) as [[[pid pos]|]|] eqn:Hsel; [| |done].
  - case_decide as Hq; [done|].
    unfold select_portfolio. cbn [portfolios set_positions].
    destruct (portfolios db !! pf_id) as [pf|] eqn:Hpf; [|done].
    intros _. exists pf, (Some (pid, pos)). split; [done|]. split; [done|].
    by intros ?? [= <- <-].
  - unfold select_portfolio. cbn [portfolios set_positions].
    destruct (portfolios db !! pf_id) as [pf|] eqn:Hpf; [|done].
    intros _. by exists pf, None.
Qed.

Lemma sell_rejected db found :
  Order.order_type order = SELL →
  scalar_one_or_none (select_open_position pf_id (Order.asset_id order) db) = Ok found →
  match found with
  | Some (_, pos) => Position.quantity pos < q'
  | None => True
  end →
  update_position_from_order now order execution_result db
  = (Err InsufficientPosition, db).
Proof.
  intros Htype Hsel Hq. unfold update_position_from_order.
  rewrite Htype. unfold mbind, io_bind, query, raise.
  fold pf_id. rewrite Hsel. destruct found as [[pid pos]|]; [|done].
  fold q'. by rewrite decide_True.
Qed.
End fill.

(** ** Buy fills *)

(** C1, as the code has it.  A buy fill applied to the session lowers the
    cash balance by exactly [filled_qty * filled_price + fee_amount].  The
    step reads the balance only to subtract from it: the fill is applied
    whatever the balance is, and the balance it leaves is non-negative
    exactly when the cost did not exceed the balance before. *)
Theorem buy_fill_balance now order ex db pf found :
  Order.order_type order = BUY →
  portfolios db !! Order.portfolio_id order = Some pf →
  scalar_one_or_none
    (select_open_position (Order.portfolio_id order) (Order.asset_id order) db) = Ok found →
  (∀ pid pos, found = Some (pid, pos) →
     Position.quantity pos + Execution.executed_quantity ex ≠ 0) →
  let cost :=
    Execution.executed_quantity ex * Execution.executed_price ex + Execution.fee_amount ex in
  ∃ db' pf',
    update_position_from_order now order ex db = (Ok tt, db')
    ∧ portfolios db' !! Order.portfolio_id order = Some pf'
    ∧ Portfolio.current_balance pf' = Portfolio.current_balance pf - cost
    ∧ (0 ≤ Portfolio.current_balance pf' ↔ cost ≤ Portfolio.current_balance pf).
Proof.
  intros Htype Hpf Hsel Hq cost.
  assert (∀ b, 0 ≤ b - cost ↔ cost ≤ b) as Hle.
  { intros b. unfold Qcminus. by rewrite <- Qcle_minus_iff. }
  destruct found as [[pid pos]|].
  - eexists _, _. split; [by eapply buy_existing; eauto|].
    cbn [portfolios]. rewrite lookup_insert_eq. split; [done|]. split; [done|]. apply Hle.
  - eexists _, _. split; [by eapply buy_new; eauto|].
    cbn [portfolios]. rewrite lookup_insert_eq. split; [done|]. split; [done|]. apply Hle.
Qed.

(** A buy of 1 BTC at 45,000 against a balance of 10 EUR is applied and
    leaves the balance at -45,057.50. *)
Lemma buy_fill_overdraws :
  ∃ db' pf',
    update_position_from_order noon (btc_order BUY 1 None) (btc_fill 1 (dec 45000 1))
      (db_with (dec 10 1)) = (Ok tt, db')
    ∧ portfolios db' !! main_portfolio = Some pf'
    ∧ Portfolio.current_balance pf' = dec (-90115) 2
    ∧ Portfolio.current_balance pf' < 0.
Proof.
  eexists _, _. split.
  { by apply (buy_new noon (btc_order BUY 1 None) (btc_fill 1 (dec 45000 1))
                (db_with (dec 10 1)) (portfolio_with (dec 10 1))). }
  cbn [portfolios]. rewrite lookup_insert_eq. split; [done|].
  split; [by apply Qc_is_canon|by vm_compute].
Qed.

Lemma buy_fill_balance_witness :
  ∃ db' pf',
    update_position_from_order noon (btc_order BUY (dec 1 10) None)
      (btc_fill (dec 1 10) (dec 45000 1)) (db_with (dec 10000 1)) = (Ok tt, db')
    ∧ portfolios db' !! main_portfolio = Some pf'
    ∧ Portfolio.current_balance pf' = dec 549325 100.
Proof.
  destruct (buy_fill_balance noon (btc_order BUY (dec 1 10) None)
              (btc_fill (dec 1 10) (dec 45000 1))
              (db_with (dec 10000 1)) (portfolio_with (dec 10000 1)) None)
    as (db' & pf' & Hrun & Hpf & Hbal & _).
  - reflexivity.
  - reflexivity.
  - reflexivity.
  - intros pid pos H. discriminate H.
  - exists db', pf'. split; [exact Hrun|]. split; [exact Hpf|].
    rewrite Hbal. apply Qc_is_canon. reflexivity.
Defined.



(** ** Sell fills *)

Lemma simulated_fill q p :
  p ≠ 0 →
  simulate_order_execution settings noon 0%nat (btc_order SELL q (Some p))
  = Ok (btc_fill q p).
Proof.
  intros Hp. unfold simulate_order_execution, btc_fill. cbn.
  by rewrite decide_False.
Qed.

Lemma dec_nonzero n d : n ≠ 0%Z → dec n d ≠ 0.
Proof.
  intros Hn H. apply Q2Qc_eq_iff in H. unfold Qeq in H. cbn in H. lia.
Qed.

(** Selling 0.1 BTC at 46,000 with the simulator's fee of 0.15 %
    (6.90) against an average price of 45,000 realizes 93.10, not 31. *)
Lemma sell_fill_realizes_93_10 :
  ∃ db' pos',
    simulate_order_execution settings noon 0%nat
      (btc_order SELL (dec 1 10) (Some (dec 46000 1)))
    = Ok (btc_fill (dec 1 10) (dec 46000 1))
    ∧ Execution.fee_amount (btc_fill (dec 1 10) (dec 46000 1)) = dec 69 10
    ∧ update_position_from_order noon (btc_order SELL (dec 1 10) (Some (dec 46000 1)))
        (btc_fill (dec 1 10) (dec 46000 1)) (db_holding (dec 549325 100)) = (Ok tt, db')
    ∧ positions db' !! 0%nat = Some pos'
    ∧ Position.realized_pnl btc_position = 0
    ∧ Position.realized_pnl pos' = dec 931 10
    ∧ Position.realized_pnl pos' ≠ dec 31 1.
Proof.
  eexists _, _. split; [by apply simulated_fill, dec_nonzero|].
  split; [by apply Qc_is_canon|]. split.
  { apply (sell_existing noon (btc_order SELL (dec 1 10) (Some (dec 46000 1)))
             (btc_fill (dec 1 10) (dec 46000 1)) (db_holding (dec 549325 100))
             0%nat btc_position (portfolio_with (dec 549325 100))); [done..| |done].
    by vm_compute. }
  cbn [positions]. rewrite lookup_insert_eq. split; [done|]. split; [done|].
  cbn [Position.realized_pnl].
  assert (Position.realized_pnl btc_position
          + (Execution.executed_quantity (btc_fill (dec 1 10) (dec 46000 1))
             * Execution.executed_price (btc_fill (dec 1 10) (dec 46000 1))
             - Execution.executed_quantity (btc_fill (dec 1 10) (dec 46000 1))
               * Position.avg_buy_price btc_position
             - Execution.fee_amount (btc_fill (dec 1 10) (dec 46000 1)))
          = dec 931 10) as -> by by apply Qc_is_canon.
  split; [done|]. intros H. apply (f_equal Qcanon.this) in H. by vm_compute in H.
Qed.

(** C3, as the code has it.  A sell fill of [q'] at [p'] with fee [f]
    against an open position of average price [a] holding at least [q']
    adds [q' * (p' - a) - f] to the position's realized P&L and to the
    portfolio's total P&L, takes [q'] off the position (closed, with
    [closed_at] set, exactly when nothing is left) and adds [q' * p' - f]
    to the balance.  With the simulator's fee of 0.15 %, selling 0.1 BTC at
    46,000 against an average price of 45,000 pays a fee of 6.90 and
    realizes 93.10. *)
Theorem sell_fill_realized :
  (∀ now order ex db pid pos pf,
     let q' := Execution.executed_quantity ex in
     let p' := Execution.executed_price ex in
     let f := Execution.fee_amount ex in
     let a := Position.avg_buy_price pos in
     let realized := q' * (p' - a) - f in
     Order.order_type order = SELL →
     scalar_one_or_none
       (select_open_position (Order.portfolio_id order) (Order.asset_id order) db)
       = Ok (Some (pid, pos)) →
     q' ≤ Position.quantity pos →
     portfolios db !! Order.portfolio_id order = Some pf →
     ∃ db' pos' pf',
       update_position_from_order now order ex db = (Ok tt, db')
       ∧ positions db' !! pid = Some pos'
       ∧ portfolios db' !! Order.portfolio_id order = Some pf'
       ∧ Position.realized_pnl pos' = Position.realized_pnl pos + realized
       ∧ Position.quantity pos' = Position.quantity pos - q'
       ∧ Position.avg_buy_price pos' = a
       ∧ (Position.quantity pos' = 0 →
          Position.status pos' = CLOSED ∧ Position.closed_at pos' = Some now)
       ∧ (Position.quantity pos' ≠ 0 →
          Position.status pos' = Position.status pos
          ∧ Position.closed_at pos' = Position.closed_at pos)
       ∧ Portfolio.current_balance pf' = Portfolio.current_balance pf + (q' * p' - f)
       ∧ Portfolio.total_profit_loss pf' = Portfolio.total_profit_loss pf + realized)
  ∧ (∀ ex, simulate_order_execution settings noon 0%nat
             (btc_order SELL (dec 1 10) (Some (dec 46000 1))) = Ok ex →
       Execution.fee_amount ex = dec 69 10
       ∧ Execution.executed_quantity ex
         * (Execution.executed_price ex - Position.avg_buy_price btc_position)
         - Execution.fee_amount ex = dec 931 10).
Proof.
  split.
  - intros now order ex db pid pos pf q' p' f a realized Htype Hsel Hq Hpf.
    assert (q' * p' - q' * a - f = realized) as Hreal by (unfold realized; ring).
    eexists _, _, _. split.
    { eapply sell_existing; eauto. by apply Qcle_not_lt. }
    cbn [positions portfolios]. rewrite !lookup_insert_eq.
    split; [done|]. split; [done|]. cbn. fold q' p' f a. rewrite Hreal.
    repeat split; by case_decide.
  - intros ex Hex. rewrite simulated_fill in Hex by by apply dec_nonzero.
    injection Hex as <-. split; by apply Qc_is_canon.
Qed.

Lemma sell_fill_realized_witness :
  ∃ db' pos' pf',
    update_position_from_order noon (btc_order SELL (dec 1 10) (Some (dec 46000 1)))
      (btc_fill (dec 1 10) (dec 46000 1)) (db_holding (dec 549325 100)) = (Ok tt, db')
    ∧ positions db' !! 0%nat = Some pos'
    ∧ portfolios db' !! main_portfolio = Some pf'
    ∧ Position.realized_pnl pos' = dec 931 10
    ∧ Position.status pos' = CLOSED
    ∧ Portfolio.current_balance pf' = dec 1008635 100.
Proof.
  destruct (proj1 sell_fill_realized noon
              (btc_order SELL (dec 1 10) (Some (dec 46000 1)))
              (btc_fill (dec 1 10) (dec 46000 1)) (db_holding (dec 549325 100))
              0%nat btc_position (portfolio_with (dec 549325 100)))
    as (db' & pos' & pf' & Hrun & Hpos & Hpf & Hreal & Hq & _ & Hclosed & _ & Hbal & _).
  - reflexivity.
  - reflexivity.
  - vm_compute. discriminate.
  - reflexivity.
  - exists db', pos', pf'. split; [exact Hrun|]. split; [exact Hpos|]. split; [exact Hpf|].
    split; [rewrite Hreal; apply Qc_is_canon; reflexivity|].
    split; [apply Hclosed; rewrite Hq; apply Qc_is_canon; reflexivity|].
    rewrite Hbal. apply Qc_is_canon. reflexivity.
Defined.

(** C4.  A sell fill for more than the open position holds, or without an
    open position, raises the insufficient-position error (HTTP 400) and
    leaves every row of the session as it was: no position and no
    portfolio is touched. *)
Theorem sell_fill_insufficient now order ex db found :
  Order.order_type order = SELL →
  scalar_one_or_none
    (select_open_position (Order.portfolio_id order) (Order.asset_id order) db) = Ok found →
  match found with
  | Some (_, pos) => Position.quantity pos < Execution.executed_quantity ex
  | None => True
  end →
  update_position_from_order now order ex db = (Err InsufficientPosition, db)
  ∧ status_code InsufficientPosition = Some 400%nat.
Proof. intros Htype Hsel Hq. split; [by eapply sell_rejected|done]. Qed.

Lemma sell_fill_insufficient_witness :
  update_position_from_order noon (btc_order SELL (dec 2 10) None)
    (btc_fill (dec 2 10) (dec 45000 1)) (db_holding (dec 10000 1))
  = (Err InsufficientPosition, db_holding (dec 10000 1)).
Proof.
  apply (sell_fill_insufficient noon (btc_order SELL (dec 2 10) None)
           (btc_fill (dec 2 10) (dec 45000 1)) (db_holding (dec 10000 1))
           (Some (0%nat, btc_position))).
  - reflexivity.
  - reflexivity.
  - vm_compute. reflexivity.
Defined.

(** ** Applying a fill again *)

(** The same buy fill of 0.1 BTC at 45,000 applied twice for the same
    executed order: the second application lowers the balance from
    5,493.25 to 986.50 and raises the position from 0.1 to 0.2. *)
Lemma buy_fill_applied_twice :
  let order := btc_order BUY (dec 1 10) None in
  let fill := btc_fill (dec 1 10) (dec 45000 1) in
  ∃ db1 db2 pf1 pf2 pos1 pos2,
    update_position_from_order noon order fill (db_with (dec 10000 1)) = (Ok tt, db1)
    ∧ update_position_from_order noon order fill db1 = (Ok tt, db2)
    ∧ portfolios db1 !! main_portfolio = Some pf1
    ∧ portfolios db2 !! main_portfolio = Some pf2
    ∧ Portfolio.current_balance pf1 = dec 549325 100
    ∧ Portfolio.current_balance pf2 = dec 98650 100
    ∧ Portfolio.current_balance pf2 ≠ Portfolio.current_balance pf1
    ∧ positions db1 !! 0%nat = Some pos1
    ∧ positions db2 !! 0%nat = Some pos2
    ∧ Position.quantity pos1 = dec 1 10
    ∧ Position.quantity pos2 = dec 2 10
    ∧ Position.quantity pos2 ≠ Position.quantity pos1.
Proof.
  intros order fill.
  pose proof (buy_new noon order fill (db_with (dec 10000 1))
                (portfolio_with (dec 10000 1)) eq_refl eq_refl eq_refl) as H1.
  match type of H1 with _ = (_, ?d) => set (db1 := d) in * end.
  pose proof (buy_existing noon order fill db1 0%nat
                (Position.mk main_portfolio btc_id (dec 1 10) (dec 45000 1)
                   (Some (dec 45000 1)) 0 0 OPEN None)
                (Portfolio.set_current_balance
                   (Portfolio.current_balance (portfolio_with (dec 10000 1))
                    - (dec 1 10 * dec 45000 1 + dec 1 10 * dec 45000 1 * dec 15 10000))
                   (portfolio_with (dec 10000 1)))
                eq_refl eq_refl) as H2.
  eexists db1, _, _, _, _, _. split; [exact H1|]. split.
  { apply H2; [|done]. intros H. apply (f_equal Qcanon.this) in H. by vm_compute in H. }
  cbn [portfolios positions db1]. rewrite !lookup_insert_eq.
  split; [done|]. split; [done|]. cbn.
  assert (∀ x y : Qc, Qcanon.this x ≠ Qcanon.this y → x ≠ y) as Hne by congruence.
  split; [by apply Qc_is_canon|]. split; [by apply Qc_is_canon|].
  split; [by apply Hne|]. split; [done|]. split; [done|]. split; [done|].
  split; [by apply Qc_is_canon|]. by apply Hne.
Qed.

(** C5, as the code has it.  [update_position_from_order] never reads the
    order's status, so nothing guards a fill against a second application:
    a buy fill applied again lowers the balance by its cost again and adds
    its quantity to the position again. *)
Theorem buy_fill_applied_again now order ex db db1 :
  let q' := Execution.executed_quantity ex in
  let cost := q' * Execution.executed_price ex + Execution.fee_amount ex in
  Order.order_type order = BUY →
  0 < q' →
  (∀ pid pos, positions db !! pid = Some pos → Position.status pos = OPEN →
     0 < Position.quantity pos) →
  update_position_from_order now order ex db = (Ok tt, db1) →
  (∀ s d, update_position_from_order now (Order.set_status s order) ex d
          = update_position_from_order now order ex d)
  ∧ ∃ db2 pid pos1 pos2 pf1 pf2,
      update_position_from_order now order ex db1 = (Ok tt, db2)
      ∧ portfolios db1 !! Order.portfolio_id order = Some pf1
      ∧ portfolios db2 !! Order.portfolio_id order = Some pf2
      ∧ Portfolio.current_balance pf2 = Portfolio.current_balance pf1 - cost
      ∧ positions db1 !! pid = Some pos1
      ∧ positions db2 !! pid = Some pos2
      ∧ Position.quantity pos2 = Position.quantity pos1 + q'.
Proof.
  intros q' cost Htype Hq' Hpos Hrun. split; [done|].
  destruct (buy_applied_inv _ _ _ _ _ Htype Hrun) as (pf & found & Hpf & Hsel & Hq).
  destruct found as [[pid pos]|].
  - rewrite (buy_existing _ _ _ _ _ _ _ Htype Hsel (Hq _ _ eq_refl) Hpf) in Hrun.
    injection Hrun as <-.
    apply scalar_one_or_none_Some in Hsel.
    destruct (select_open_position_elem _ _ _ _ _ Hsel) as [Hlook Hopen].
    pose proof (Hpos _ _ Hlook (proj2 (proj2 Hopen))) as Hqpos.
    eexists _, pid, _, _, _, _. split.
    { eapply buy_existing; [done| | |cbn [portfolios]; apply lookup_insert_eq].
      - apply scalar_one_or_none_Some.
        eapply select_open_position_update; [exact Hsel| |reflexivity]. exact Hopen.
      - cbn. apply not_eq_sym, Qclt_not_eq.
        by repeat apply Qcplus_pos_pos. }
    cbn [portfolios positions]. rewrite !lookup_insert_eq. done.
  - rewrite (buy_new _ _ _ _ _ Htype Hsel Hpf) in Hrun. injection Hrun as <-.
    apply scalar_one_or_none_None in Hsel.
    eexists _, (new_id (positions db)), _, _, _, _. split.
    { eapply buy_existing; [done| | |cbn [portfolios]; apply lookup_insert_eq].
      - apply scalar_one_or_none_Some.
        eapply select_open_position_add; [exact Hsel| |reflexivity]. done.
      - cbn. apply not_eq_sym, Qclt_not_eq. by apply Qcplus_pos_pos. }
    cbn [portfolios positions]. rewrite !lookup_insert_eq. done.
Qed.

Lemma buy_fill_applied_again_witness :
  let order := btc_order BUY (dec 1 10) None in
  let fill := btc_fill (dec 1 10) (dec 45000 1) in
  ∃ db1 db2 pf1 pf2,
    update_position_from_order noon order fill (db_with (dec 10000 1)) = (Ok tt, db1)
    ∧ update_position_from_order noon order fill db1 = (Ok tt, db2)
    ∧ portfolios db1 !! main_portfolio = Some pf1
    ∧ portfolios db2 !! main_portfolio = Some pf2
    ∧ Portfolio.current_balance pf2
      = Portfolio.current_balance pf1 - (dec 1 10 * dec 45000 1 + Execution.fee_amount fill).
Proof.
  intros order fill.
  assert (∃ db1, update_position_from_order noon order fill (db_with (dec 10000 1))
                 = (Ok tt, db1)) as [db1 Hrun].
  { eexists. vm_compute. reflexivity. }
  destruct (buy_fill_applied_again noon order fill (db_with (dec 10000 1)) db1)
    as (_ & db2 & pid & pos1 & pos2 & pf1 & pf2 & H2 & Hpf1 & Hpf2 & Hbal & _).
  - reflexivity.
  - vm_compute. reflexivity.
  - intros pid pos H. vm_compute in H. discriminate H.
  - exact Hrun.
  - exists db1, db2, pf1, pf2. split; [exact Hrun|]. split; [exact H2|].
    split; [exact Hpf1|]. split; [exact Hpf2|exact Hbal].
Defined.

(** ** Handlers *)

Lemma update_position_from_order_frame now order ex db r db' :
  update_position_from_order now order ex db = (r, db') →
  orders db' = orders db ∧ assets db' = assets db.
Proof.
  unfold update_position_from_order, mbind, io_bind, query, modify, lift, raise,
    mret, io_ret, decimal_div.
  intros H. repeat (case_match; simplify_eq/=); done.
Qed.


Lemma get_user_portfolio_inv pid user db r db' :
  get_user_portfolio pid user db = (r, db') → db' = db.
Proof. unfold get_user_portfolio. intros H. by repeat (case_match; simplify_eq/=). Qed.

Lemma get_asset_by_symbol_inv sym db r db' :
  get_asset_by_symbol sym db = (r, db') → db' = db.
Proof.
  unfold get_asset_by_symbol, mbind, io_bind, query, raise, mret, io_ret.
  intros H. by repeat (case_match; simplify_eq/=).
Qed.




Section quick_trade.
Variables (cfg : Settings.t) (now : timestamp) (trade_data : QuickTradeRequest.t).
Variables (db : Db) (pf : Portfolio.t) (asset : uuid * Asset.t) (q : Decimal).

Let pf_id := QuickTradeRequest.portfolio_id trade_data.
Let id := new_id (orders db).
Let price := dec 45000 1.

Hypothesis Hvalid : QuickTradeRequest.valid trade_data = true.
Hypothesis Hpf : portfolios db !! pf_id = Some pf.
Hypothesis Hasset :
  get_asset_by_symbol (QuickTradeRequest.asset_symbol trade_data) db = (Ok asset, db).
Hypothesis Hpaper : Settings.PAPER_TRADING_MODE cfg = true.
Hypothesis Hq : trade_quantity trade_data price = Ok q.

End quick_trade.


Lemma select_open_position_ext pf a db db' :
  positions db' = positions db →
  select_open_position pf a db' = select_open_position pf a db.
Proof. unfold select_open_position. by intros ->. Qed.

(** ** Quick trades *)




(** ** Order creation *)

(** C7, where the code departs from it.  A sell of 0.1 BTC (notional
    4,500) by a portfolio that holds 0.1 BTC and 1,000 EUR in cash passes
    the minimum-amount and daily-limit checks and is rejected with
    "Insufficient portfolio balance" (HTTP 400): the balance check of
    [validate_order_limits] does not look at the side of the order. *)
Theorem create_order_sell_checked_against_balance :
  let order_data := OrderCreate.mk main_portfolio "BTC" SELL (dec 1 10) None None in
  let db := db_holding (dec 1000 1) in
  serve (create_order settings noon order_data alice) db = (Err InsufficientBalance, db)
  ∧ status_code InsufficientBalance = Some 400%nat.
Proof. intros order_data db. split; [by vm_compute|done]. Qed.

Lemma create_order_cases cfg now order_data user db r db' :
  serve (create_order cfg now order_data user) db = (r, db') →
  match r with
  | Err _ => db' = db
  | Ok response =>
      ∃ order,
        db' = set_orders (<[new_id (orders db) := order]> (orders db)) db
        ∧ OrderResponse.id response = new_id (orders db)
        ∧ Order.status order = PENDING
        ∧ Order.executed_quantity order = 0
  end.
Proof.
  unfold serve, create_order, validate_order_limits.
  unfold mbind, io_bind, in_session, commit, raise, query, mret, io_ret, add_order, add_task.
  cbn [session stored background_tasks].
  intros H.
  repeat (case_match; simplify_eq/=);
    repeat match goal with
      | H : get_user_portfolio _ _ _ = _ |- _ => apply get_user_portfolio_inv in H as ->
      | H : get_asset_by_symbol _ _ = _ |- _ => apply get_asset_by_symbol_inv in H as ->
      end; try done; by eexists.
Qed.

(** C10.  An order that [create_order] has created is stored as pending
    with nothing executed; the cash balance, the positions and the assets
    are as before, and the background task changes nothing:
    [execute_order_async] returns the rows it was given. *)
Theorem create_order_leaves_ledger cfg now order_data user db response db' :
  serve (create_order cfg now order_data user) db = (Ok response, db') →
  (∀ order_id d, execute_order_async order_id d = d)
  ∧ ∃ order,
      orders db !! OrderResponse.id response = None
      ∧ orders db' = <[OrderResponse.id response := order]> (orders db)
      ∧ Order.status order = PENDING
      ∧ Order.executed_quantity order = 0
      ∧ portfolios db' = portfolios db
      ∧ positions db' = positions db
      ∧ assets db' = assets db.
Proof.
  intros (order & -> & -> & Hst & Hex)%create_order_cases. split; [done|].
  exists order. split; [apply new_id_fresh|done].
Qed.

Lemma create_order_leaves_ledger_witness :
  let order_data := OrderCreate.mk main_portfolio "BTC" BUY (dec 1 10) None None in
  let db := db_with (dec 10000 1) in
  ∃ response db',
    serve (create_order settings noon order_data alice) db = (Ok response, db')
    ∧ Order.status <$> orders db' !! OrderResponse.id response = Some PENDING
    ∧ portfolios db' = portfolios db
    ∧ positions db' = positions db.
Proof.
  intros order_data db.
  assert (∃ response db',
            serve (create_order settings noon order_data alice) db = (Ok response, db'))
    as (response & db' & Hrun).
  { eexists _, _. vm_compute. reflexivity. }
  destruct (create_order_leaves_ledger settings noon order_data alice db response db' Hrun)
    as (_ & order & _ & Horders & Hst & _ & Hpf & Hpos & _).
  exists response, db'. split; [exact Hrun|]. split; [|split; [exact Hpf|exact Hpos]].
  rewrite Horders, lookup_insert_eq. cbn. rewrite Hst. reflexivity.
Defined.

(** ** Order status *)

Lemma quick_trade_orders cfg now trade_data user db id :
  id ≠ new_id (orders db) →
  orders (serve (quick_trade cfg now trade_data user) db).2 !! id = orders db !! id.
Proof.
  intros Hid. unfold serve, quick_trade.
  unfold mbind, io_bind, in_session, commit, raise, lift, mret, io_ret, add_order,
    set_order, modify.
  cbn [session stored background_tasks].
  repeat (case_match; simplify_eq/=);
    repeat match goal with
      | H : get_user_portfolio _ _ _ = _ |- _ => apply get_user_portfolio_inv in H as ->
      | H : get_asset_by_symbol _ _ = _ |- _ => apply get_asset_by_symbol_inv in H as ->
      | H : update_position_from_order _ _ _ _ = _ |- _ =>
          apply update_position_from_order_frame in H as [-> _]
      end; cbn; rewrite ?lookup_insert_ne by done; done.
Qed.

Lemma select_user_order_Some order_id user db order :
  select_user_order order_id user db = Some order → orders db !! order_id = Some order.
Proof. unfold select_user_order. intros H. by repeat (case_match; simplify_eq/=). Qed.

Lemma update_order_cases order_id order_update user db r db' :
  serve (update_order order_id order_update user) db = (r, db') →
  match r with
  | Err _ => db' = db
  | Ok _ =>
      ∃ order order',
        orders db !! order_id = Some order
        ∧ Order.status order = PENDING
        ∧ Order.status order' = PENDING
        ∧ db' = set_orders (<[order_id := order']> (orders db)) db
  end.
Proof.
  unfold serve, update_order.
  unfold mbind, io_bind, in_session, commit, raise, query, mret, io_ret, set_order, modify.
  cbn [session stored background_tasks].
  intros H.
  repeat (case_match; simplify_eq/=); try done;
    match goal with
    | H : select_user_order _ _ _ = Some ?o |- _ =>
        apply select_user_order_Some in H;
        destruct (decide (Order.status o = PENDING)) as [Hpending|]; [|done]
    end;
    (eexists _, _; split; [eassumption|]; split; [eassumption|]; split; [|reflexivity];
     exact Hpending).
Qed.

Lemma cancel_order_cases now order_id user db r db' :
  serve (cancel_order now order_id user) db = (r, db') →
  match r with
  | Err _ => db' = db
  | Ok _ =>
      ∃ order,
        orders db !! order_id = Some order
        ∧ Order.status order = PENDING
        ∧ db' = set_orders
                  (<[order_id := Order.set_cancelled_at (Some now)
                                   (Order.set_status CANCELLED order)]> (orders db)) db
  end.
Proof.
  unfold serve, cancel_order.
  unfold mbind, io_bind, in_session, commit, raise, query, mret, io_ret, set_order, modify.
  cbn [session stored background_tasks].
  intros H.
  repeat (case_match; simplify_eq/=); try done;
    match goal with
    | H : select_user_order _ _ _ = Some ?o |- _ =>
        apply select_user_order_Some in H;
        destruct (decide (Order.status o = PENDING)) as [Hpending|]; [|done]
    end;
    by eexists.
Qed.

Lemma update_order_settled order_id order_update user db order :
  orders db !! order_id = Some order → Order.status order ≠ PENDING →
  ∃ e, serve (update_order order_id order_update user) db = (Err e, db).
Proof.
  intros Hlook Hst.
  destruct (serve (update_order order_id order_update user) db) as [[response|e] db'] eqn:H;
    apply update_order_cases in H.
  - destruct H as (o & _ & Ho & Hpending & _). congruence.
  - subst. by eexists.
Qed.

Lemma cancel_order_settled now order_id user db order :
  orders db !! order_id = Some order → Order.status order ≠ PENDING →
  ∃ e, serve (cancel_order now order_id user) db = (Err e, db).
Proof.
  intros Hlook Hst.
  destruct (serve (cancel_order now order_id user) db) as [[response|e] db'] eqn:H;
    apply cancel_order_cases in H.
  - destruct H as (o & Ho & Hpending & _). congruence.
  - subst. by eexists.
Qed.

Lemma handle_keeps_settled cfg db r id order :
  orders db !! id = Some order → Order.status order ≠ PENDING →
  orders (handle cfg db r) !! id = Some order.
Proof.
  intros Hlook Hst.
  assert (id ≠ new_id (orders db)) as Hnew.
  { intros ->. by rewrite new_id_fresh in Hlook. }
  destruct r as [now order_data user|now trade_data user|order_id order_update user
                |now order_id user]; cbn [handle].
  - destruct (serve (create_order cfg now order_data user) db) as [[response|e] db'] eqn:H;
      apply create_order_cases in H; cbn [snd].
    + destruct H as (o & -> & _). cbn. by rewrite lookup_insert_ne.
    + by subst.
  - by rewrite quick_trade_orders.
  - destruct (serve (update_order order_id order_update user) db)
      as [[response|e] db'] eqn:H; apply update_order_cases in H; cbn [snd].
    + destruct H as (o & o' & Ho & Hpending & _ & ->). cbn.
      rewrite lookup_insert_ne; [done|]. intros ->. congruence.
    + by subst.
  - destruct (serve (cancel_order now order_id user) db) as [[response|e] db'] eqn:H;
      apply cancel_order_cases in H; cbn [snd].
    + destruct H as (o & Ho & Hpending & ->). cbn.
      rewrite lookup_insert_ne; [done|]. intros ->. congruence.
    + by subst.
Qed.

(** C8.  An order in a terminal status (executed, cancelled, failed) is
    left as it is by every sequence of create, quick-trade, update and
    cancel requests, so it never returns to pending; [update_order] and
    [cancel_order] fail on every order that is not pending and leave all
    rows unchanged. *)
Theorem order_status_monotone cfg db id order :
  orders db !! id = Some order →
  (terminal (Order.status order) →
   ∀ rs, ∃ order',
     orders (handle_all cfg db rs) !! id = Some order'
     ∧ order' = order
     ∧ Order.status order' ≠ PENDING)
  ∧ (Order.status order ≠ PENDING →
     (∀ order_update user,
        ∃ e, serve (update_order id order_update user) db = (Err e, db))
     ∧ (∀ now user, ∃ e, serve (cancel_order now id user) db = (Err e, db))).
Proof.
  intros Hlook. split.
  - intros Hterm rs.
    assert (Order.status order ≠ PENDING) as Hst
      by (destruct Hterm as [H|[H|H]]; rewrite H; done).
    exists order. split; [|done]. revert db Hlook. unfold handle_all.
    induction rs as [|r rs IH]; intros db Hlook; [done|].
    cbn [foldl]. apply IH. by apply handle_keeps_settled.
  - intros Hst. split.
    + intros. by eapply update_order_settled.
    + intros. by eapply cancel_order_settled.
Qed.

Lemma order_status_monotone_witness :
  let executed := btc_order BUY (dec 1 10) None in
  let db := set_orders {[ 0%nat := executed ]} (db_holding (dec 549325 100)) in
  let rs :=
    [ UpdateOrder 0%nat (OrderUpdate.mk (Some (dec 44000 1)) None None) alice;
      CancelOrder noon 0%nat alice;
      QuickTrade noon (QuickTradeRequest.mk main_portfolio "btc" SELL None (Some (dec 1 10)))
        alice;
      CreateOrder noon (OrderCreate.mk main_portfolio "BTC" BUY (dec 1 100) None None) alice ]
  in
  orders (handle_all settings db rs) !! 0%nat = Some executed
  ∧ ∃ e, serve (cancel_order noon 0%nat alice) db = (Err e, db).
Proof.
  intros executed db rs.
  destruct (order_status_monotone settings db 0%nat executed) as [Hkept Hfail].
  - reflexivity.
  - split.
    + destruct (Hkept (or_introl eq_refl) rs) as (order' & Hfinal & Heq & _).
      exact (eq_trans Hfinal (f_equal Some Heq)).
    + apply Hfail. discriminate.
Defined.

(** ** Concentration risk *)





